(** * Telerivet Python client: the [Service] entity

    A shallow embedding of [telerivet/service.py].  Every method of
    [Service] builds a path and a parameter mapping and hands them to the
    API dispatcher ([self._api]); the embedding makes the dispatcher's
    request log and the Python exceptions explicit. *)

From Stdlib Require Import ZArith.
From stdpp Require Import base strings list gmap pretty.

Local Set Warnings "-register-all".

(** ** Python values *)

Inductive entity_class := Service | Contact | Message | ContactServiceState.

(** JSON-like Python values, plus entity objects.  A [dict] keeps its
    insertion order, so it is an association list; an entity carries its
    class, the data it was built from and its set of dirty field names. *)
Inductive pyval :=
| VNone
| VBool (b : bool)
| VInt (z : Z)
| VStr (s : string)
| VList (l : list pyval)
| VDict (d : list (string * pyval))
| VEntity (e : Entity)
with Entity :=
| MkEntity (cls : entity_class) (data : pyval) (dirty : gset string).

Definition entity_cls (e : Entity) : entity_class :=
  match e with MkEntity c _ _ => c end.
Definition entity_data (e : Entity) : pyval :=
  match e with MkEntity _ d _ => d end.
Definition entity_dirty (e : Entity) : gset string :=
  match e with MkEntity _ _ s => s end.

Inductive exn :=
| TypeError
| KeyError (key : string)
| AttributeError (name : string)
| InvalidParameterError (message : string)
| NotFoundError (message : string)
| PermissionError (message : string)
| APIError (message : string).

Inductive result (A : Type) :=
| Ok (a : A)
| Raise (x : exn).
Arguments Ok {A} a.
Arguments Raise {A} x.

(** ** Dictionaries *)

Fixpoint dict_get (k : string) (d : list (string * pyval)) : option pyval :=
  match d with
  | [] => None
  | (k', v) :: d' => if String.eqb k k' then Some v else dict_get k d'
  end.

(** [d[k] = v]: an existing key keeps its position, a new key goes last. *)
Fixpoint dict_set (k : string) (v : pyval) (d : list (string * pyval))
  : list (string * pyval) :=
  match d with
  | [] => [(k, v)]
  | (k', v') :: d' =>
      if String.eqb k k' then (k, v) :: d' else (k', v') :: dict_set k v d'
  end.

Definition dict_keys (d : list (string * pyval)) : list string := map fst d.

(** ** The Python operators the methods use *)

Fixpoint substring_of (k s : string) : bool :=
  String.prefix k s ||
  match s with
  | EmptyString => false
  | String _ s' => substring_of k s'
  end.

Definition is_str (k : string) (v : pyval) : bool :=
  match v with VStr s => String.eqb k s | _ => false end.

(** [k in v] for a string [k]. *)
Definition py_in (k : string) (v : pyval) : result bool :=
  match v with
  | VDict d => Ok (bool_decide (is_Some (dict_get k d)))
  | VList l => Ok (existsb (is_str k) l)
  | VStr s => Ok (substring_of k s)
  | _ => Raise TypeError
  end.

(** [v[k]] for a string [k]. *)
Definition py_getitem (v : pyval) (k : string) : result pyval :=
  match v with
  | VDict d => match dict_get k d with
               | Some x => Ok x
               | None => Raise (KeyError k)
               end
  | _ => Raise TypeError
  end.

(** [v[k] = x] for a string [k]; the updated object is returned. *)
Definition py_setitem (v : pyval) (k : string) (x : pyval) : result pyval :=
  match v with
  | VDict d => Ok (VDict (dict_set k x d))
  | _ => Raise TypeError
  end.

Fixpoint chars (s : string) : list pyval :=
  match s with
  | EmptyString => []
  | String c s' => VStr (String c EmptyString) :: chars s'
  end.

(** The items a [for] loop over [v] visits: the elements of a list, the
    keys of a dict, the characters of a string. *)
Definition py_iter (v : pyval) : result (list pyval) :=
  match v with
  | VList l => Ok l
  | VDict d => Ok (map VStr (dict_keys d))
  | VStr s => Ok (chars s)
  | _ => Raise TypeError
  end.

(** [s + v] for a string [s]: only a string can be concatenated. *)
Definition py_add_str (s : string) (v : pyval) : result string :=
  match v with
  | VStr t => Ok (s +:+ t)
  | _ => Raise TypeError
  end.

(** ** Requests *)

Inductive http_method := GET | POST | DELETE.

Record request := Request {
  req_method : http_method;
  req_path : string;
  req_params : option pyval
}.

(** ** Entities *)

(** Modelled from the spec: the constructor of the [Entity] base class
    ([telerivet/entity.py], whose source is missing).  An entity is created
    from a server response, holds that data and starts with an empty dirty
    set. *)
Definition new_entity (cls : entity_class) (data : pyval) : Entity :=
  MkEntity cls data ∅.

(** Modelled from the spec: attribute access [e.name] of the [Entity] base
    class, whose source is missing.  It reads the field mapping of the
    entity.  What a name that is not a field gives is not said anywhere;
    it is an [AttributeError] here, and no property below depends on that
    choice: each one fixes the outcome of the access or holds for any
    error. *)
Definition getattr (e : Entity) (name : string) : result pyval :=
  match entity_data e with
  | VDict d => match dict_get name d with
               | Some v => Ok v
               | None => Raise (AttributeError name)
               end
  | _ => Raise (AttributeError name)
  end.

(** The state a method runs in: the entity it is called on, the requests
    issued so far (oldest first) and the remote side. *)
Record world (remote : Type) := World {
  self : Entity;
  log : list request;
  server : remote
}.
Arguments World {remote} _ _ _.
Arguments self {remote} _.
Arguments log {remote} _.
Arguments server {remote} _.

(** ** A stub server

    A small server for the examples.  It knows the project [PJ1] only; it
    keeps one state per state path, answers a GET for a path without state
    with the null-id placeholder, resets on DELETE and on a POST whose
    [id] is null, lists the states it holds, answers an invocation in the
    message context with one sent message, and accepts an update of the
    service itself. *)

Definition placeholder : pyval := VDict [("id", VNone); ("vars", VDict [])].

Definition dict_remove (k : string) (d : list (string * pyval))
  : list (string * pyval) :=
  filter (fun kv => negb (String.eqb k kv.1)) d.

Definition stub_invoke (opts : list (string * pyval)) : result pyval :=
  match dict_get "context" opts with
  | Some (VStr "message") =>
      Ok (VDict [("return_value", VNone);
                 ("sent_messages",
                  VList [VDict [("id", VStr "SM1"); ("content", VStr "hi")]])])
  | Some (VStr "contact") | Some (VStr "project") | Some (VStr "receipt") =>
      Ok (VDict [("return_value", VNone)])
  | _ => Raise (InvalidParameterError "context")
  end.

Definition stub_dispatch (st : list (string * pyval)) (rq : request)
  : result pyval * list (string * pyval) :=
  let path := req_path rq in
  if negb (String.prefix "/projects/PJ1/" path) then
    (Raise (NotFoundError "project"), st)
  else if substring_of "/states/" path then
    match req_method rq, req_params rq with
    | GET, _ => (Ok (default placeholder (dict_get path st)), st)
    | DELETE, _ => (Ok placeholder, dict_remove path st)
    | POST, Some (VDict opts) =>
        match dict_get "id" opts with
        | Some (VStr q) =>
            let v := VDict [("id", VStr q);
                            ("vars", default (VDict []) (dict_get "vars" opts))]
            in (Ok v, dict_set path v st)
        | Some VNone => (Ok placeholder, dict_remove path st)
        | _ => (Raise (InvalidParameterError "id"), st)
        end
    | POST, _ => (Raise (InvalidParameterError "id"), st)
    end
  else if substring_of "/states" path then
    (Ok (VDict [("data", VList (map snd st))]), st)
  else if substring_of "/invoke" path then
    match req_params rq with
    | Some (VDict opts) => (stub_invoke opts, st)
    | _ => (Raise (InvalidParameterError "context"), st)
    end
  else
    match req_params rq with
    | Some (VDict opts) => (Ok (VDict opts), st)
    | _ => (Ok (VDict []), st)
    end.

Definition stub_items (page : pyval) : list pyval :=
  match page with
  | VDict d => match dict_get "data" d with Some (VList l) => l | _ => [] end
  | _ => []
  end.

Definition stub_marker (page : pyval) : option pyval :=
  match page with
  | VDict d => dict_get "next_marker" d
  | _ => None
  end.

Definition stub_next_params (params : list (string * pyval)) (mk : pyval)
  : list (string * pyval) :=
  dict_set "marker" mk params.

Definition stub_repr (v : pyval) : string := "<object>".

Definition service1 : Entity :=
  new_entity Service
    (VDict [("id", VStr "SV1"); ("name", VStr "Poll");
            ("project_id", VStr "PJ1")]).

Definition contact1 : Entity :=
  new_entity Contact (VDict [("id", VStr "CT1"); ("name", VStr "Ann")]).

(** The service with a changed name that is not saved yet. *)
Definition service1_renamed : Entity :=
  MkEntity Service
    (VDict [("id", VStr "SV1"); ("name", VStr "Quiz");
            ("project_id", VStr "PJ1")])
    {["name"]}.

(** A service of a project the stub server does not know. *)
Definition service9 : Entity :=
  new_entity Service
    (VDict [("id", VStr "SV9"); ("name", VStr "Gone");
            ("project_id", VStr "PJ9")]).

(** A contact that was never given an id. *)
Definition contact_no_id : Entity :=
  new_entity Contact (VDict [("id", VNone); ("name", VStr "Bob")]).

Definition state_q1 : pyval := VDict [("id", VStr "q1"); ("vars", VDict [])].

Definition world1 : world (list (string * pyval)) := World service1 [] [].

(** The same service when the contact is at state [q1]. *)
Definition world2 : world (list (string * pyval)) :=
  World service1 [] [("/projects/PJ1/services/SV1/states/CT1", state_q1)].

Definition world3 : world (list (string * pyval)) :=
  World service1_renamed [] [].

Definition world9 : world (list (string * pyval)) := World service9 [] [].

Definition invoke_path1 : string := "/projects/PJ1/services/SV1/invoke".

Definition message_options : list (string * pyval) :=
  [("context", VStr "message"); ("event", VStr "incoming_message");
   ("message_id", VStr "SM0")].

Definition contact_options : list (string * pyval) :=
  [("context", VStr "contact"); ("contact_id", VStr "CT1")].

Definition raw_message1 : pyval :=
  VDict [("id", VStr "SM1"); ("content", VStr "hi")].

Definition bogus_options : list (string * pyval) :=
  [("context", VStr "bogus")].

Definition base1 : string := "/projects/PJ1/services/SV1".
Definition state_path1 : string := "/projects/PJ1/services/SV1/states/CT1".

Definition base9 : string := "/projects/PJ9/services/SV9".

(** A string without the path separator. *)
Fixpoint slash_free (s : string) : bool :=
  match s with
  | EmptyString => true
  | String c s' => negb (String.eqb (String c EmptyString) "/") && slash_free s'
  end.

Definition is_entity (v : pyval) : bool :=
  match v with VEntity _ => true | _ => false end.

(** A JSON scalar: [None], a boolean or a number. *)
Definition is_scalar (v : pyval) : bool :=
  match v with VNone | VBool _ | VInt _ => true | _ => false end.

(** A server that answers every request with [d]. *)
Definition const_dispatch (d : pyval) (st : unit) (rq : request)
  : result pyval * unit := (Ok d, st).

Definition world_unit : world unit := World service1 [] tt.

(** A service whose [project_id] is null. *)
Definition service_null_project : Entity :=
  new_entity Service (VDict [("id", VStr "SV1"); ("project_id", VNone)]).

(** Another service of the same project, and another contact. *)
Definition service2 : Entity :=
  new_entity Service
    (VDict [("id", VStr "SV2"); ("name", VStr "Vote");
            ("project_id", VStr "PJ1")]).

Definition contact2 : Entity :=
  new_entity Contact (VDict [("id", VStr "CT2"); ("name", VStr "Cy")]).

(** A contact whose id is a number. *)
Definition contact_int_id : Entity :=
  new_entity Contact (VDict [("id", VInt 7)]).

Definition world_null_project : world (list (string * pyval)) :=
  World service_null_project [] [].

Definition no_messages : list (string * pyval) :=
  [("return_value", VNone); ("sent_messages", VList [])].

Definition one_message : list (string * pyval) :=
  [("return_value", VNone); ("sent_messages", VList [raw_message1])].

Section Client.

(** The API dispatcher ([self._api]) and the server behind it are external:
    [dispatch] is what one request returns or raises, and how it changes
    the remote side. *)
Variable remote : Type.
Variable dispatch : remote -> request -> result pyval * remote.

(** The text Python's [str] gives for a list, a dict or an object; no
    method depends on its shape. *)
Variable py_repr : pyval -> string.

(** How a page of a listing is read, which the spec leaves to the
    dispatcher: its items, its continuation marker if any, and the
    parameters of the request for the page after a marker. *)
Variable page_items : pyval -> list pyval.
Variable page_marker : pyval -> option pyval.
Variable next_page_params :
  list (string * pyval) -> pyval -> list (string * pyval).

(** The spec allows a [save] with nothing dirty either to skip the request
    or to send an empty one. *)
Variable save_skips_clean : bool.

(** The [%s] conversion. *)
Definition format_s (v : pyval) : string :=
  match v with
  | VStr s => s
  | VNone => "None"
  | VBool true => "True"
  | VBool false => "False"
  | VInt z => pretty z
  | _ => py_repr v
  end.

Definition M (A : Type) : Type := world remote -> result A * world remote.

Definition ret {A} (a : A) : M A := fun w => (Ok a, w).
Definition bind {A B} (m : M A) (k : A -> M B) : M B :=
  fun w => match m w with
           | (Ok a, w') => k a w'
           | (Raise x, w') => (Raise x, w')
           end.
Definition lift {A} (r : result A) : M A := fun w => (r, w).
Definition get_self : M Entity := fun w => (Ok (self w), w).
Definition put_self (e : Entity) : M unit :=
  fun w => (Ok tt, World e (log w) (server w)).

Notation "x <- m ;; k" := (bind m (fun x => k))
  (at level 100, m at next level, right associativity).

(** Modelled from the spec: [self._api.doRequest(method, path, params)], of
    the dispatcher, whose source is missing.  It issues the HTTP request
    and returns the parsed response, or raises the server's failure as a
    typed error. *)
Definition doRequest (m : http_method) (path : string) (params : option pyval)
  : M pyval :=
  fun w =>
    let rq := Request m path params in
    let (r, s') := dispatch (server w) rq in
    (r, World (self w) (log w ++ [rq]) s').

(** ** Service *)

Definition base_api_path (e : Entity) : result string :=
  match getattr e "project_id" with
  | Raise x => Raise x
  | Ok project_id =>
      match getattr e "id" with
      | Raise x => Raise x
      | Ok id =>
          Ok ("/projects/" +:+ format_s project_id +:+ "/services/" +:+ format_s id)
      end
  end.

Definition getBaseApiPath : M string :=
  e <- get_self ;; lift (base_api_path e).

(** The loop of [invoke]: one [Message] is appended per item visited. *)
Definition append_messages (entries : list pyval) : list pyval :=
  fold_left (fun (sent_messages : list pyval) sent_message_data =>
               sent_messages ++ [VEntity (new_entity Message sent_message_data)])
    entries [].

(** The list the loop is meant to build: the [Message] of each raw entry,
    in the order of the entries. *)
Definition materialize (entries : list pyval) : list pyval :=
  map (fun d => VEntity (new_entity Message d)) entries.

Definition invoke (options : list (string * pyval)) : M pyval :=
  base <- getBaseApiPath ;;
  invoke_result <- doRequest POST (base +:+ "/invoke") (Some (VDict options)) ;;
  has <- lift (py_in "sent_messages" invoke_result) ;;
  if has : bool then
    raw <- lift (py_getitem invoke_result "sent_messages") ;;
    entries <- lift (py_iter raw) ;;
    let sent_messages := append_messages entries in
    lift (py_setitem invoke_result "sent_messages" (VList sent_messages))
  else ret invoke_result.

Definition getContactState (contact : Entity) : M Entity :=
  base <- getBaseApiPath ;;
  contact_id <- lift (getattr contact "id") ;;
  path <- lift (py_add_str (base +:+ "/states/") contact_id) ;;
  data <- doRequest GET path None ;;
  ret (new_entity ContactServiceState data).

Definition setContactState (contact : Entity) (options : list (string * pyval))
  : M Entity :=
  base <- getBaseApiPath ;;
  contact_id <- lift (getattr contact "id") ;;
  path <- lift (py_add_str (base +:+ "/states/") contact_id) ;;
  data <- doRequest POST path (Some (VDict options)) ;;
  ret (new_entity ContactServiceState data).

Definition resetContactState (contact : Entity) : M Entity :=
  base <- getBaseApiPath ;;
  contact_id <- lift (getattr contact "id") ;;
  path <- lift (py_add_str (base +:+ "/states/") contact_id) ;;
  data <- doRequest DELETE path None ;;
  ret (new_entity ContactServiceState data).

(** What a state method makes of the outcome of its request. *)
Definition wrap_state (r : result pyval) : result Entity :=
  match r with
  | Ok data => Ok (new_entity ContactServiceState data)
  | Raise x => Raise x
  end.

(** ** Cursor *)

Inductive cursor_state :=
| Unfetched
| FetchedPage (buffer : list pyval) (next_marker : option pyval).

Record Cursor := MkCursor {
  cur_cls : entity_class;
  cur_path : string;
  cur_params : list (string * pyval);
  cur_state : cursor_state
}.

(** Modelled from the spec: [self._api.newApiCursor(cls, path, options)], of
    the dispatcher, whose source is missing.  The cursor stores the item
    class, the path and the filter options, and starts unfetched. *)
Definition newApiCursor (cls : entity_class) (path : string)
    (options : list (string * pyval)) : M Cursor :=
  ret (MkCursor cls path options Unfetched).

Definition yield_from (c : Cursor) (items : list pyval) (marker : option pyval)
  : M (option Entity * Cursor) :=
  match items with
  | [] =>
      ret (None, MkCursor (cur_cls c) (cur_path c) (cur_params c)
                   (FetchedPage [] None))
  | x :: rest =>
      ret (Some (new_entity (cur_cls c) x),
           MkCursor (cur_cls c) (cur_path c) (cur_params c)
             (FetchedPage rest marker))
  end.

(** Modelled from the spec: [next()] of the cursor, whose source is
    missing.  The first access
    issues a GET with the stored filter options; afterwards one buffered
    item is yielded per call, and the next page is fetched when the buffer
    is exhausted, until a page is empty or carries no marker. *)
Definition cursor_next (c : Cursor) : M (option Entity * Cursor) :=
  match cur_state c with
  | Unfetched =>
      page <- doRequest GET (cur_path c) (Some (VDict (cur_params c))) ;;
      yield_from c (page_items page) (page_marker page)
  | FetchedPage (x :: rest) marker => yield_from c (x :: rest) marker
  | FetchedPage [] None => ret (None, c)
  | FetchedPage [] (Some mk) =>
      page <- doRequest GET (cur_path c)
                (Some (VDict (next_page_params (cur_params c) mk))) ;;
      yield_from c (page_items page) (page_marker page)
  end.

Definition queryContactStates (options : list (string * pyval)) : M Cursor :=
  base <- getBaseApiPath ;;
  newApiCursor ContactServiceState (base +:+ "/states") options.

(** ** Saving *)

(** The fields of [e] whose names are dirty. *)
Definition dirty_fields (e : Entity) : list (string * pyval) :=
  match entity_data e with
  | VDict d => filter (fun kv => kv.1 ∈ entity_dirty e) d
  | _ => []
  end.

(** Modelled from the spec: [Entity.save], of the base class whose source
    is missing.  It sends only the dirty fields to the base path of the
    resource and clears the dirty set once the request succeeded. *)
Definition Entity_save : M unit :=
  e <- get_self ;;
  if save_skips_clean && bool_decide (entity_dirty e = ∅) then ret tt
  else
    base <- getBaseApiPath ;;
    _ <- doRequest POST base (Some (VDict (dirty_fields e))) ;;
    put_self (MkEntity (entity_cls e) (entity_data e) ∅).

(** [Service.save] is the inherited one. *)
Definition save : M unit := Entity_save.

(** ** Properties *)

Ltac mrun :=
  unfold invoke, getContactState, setContactState, resetContactState,
    queryContactStates, newApiCursor, save, Entity_save, cursor_next,
    yield_from, getBaseApiPath, bind, ret, lift, get_self, put_self,
    doRequest in *;
  simpl in *.

Lemma dict_get_set_eq k v d : dict_get k (dict_set k v d) = Some v.
Proof.
  induction d as [|[k' v'] d IH]; simpl.
  - by rewrite String.eqb_refl.
  - destruct (String.eqb k k') eqn:E; simpl; rewrite ?String.eqb_refl, ?E; done.
Qed.

Lemma dict_get_set_ne k k' v d :
  k ≠ k' → dict_get k' (dict_set k v d) = dict_get k' d.
Proof.
  intros Hne. induction d as [|[k0 v0] d IH]; simpl.
  - destruct (String.eqb k' k) eqn:E; [|done].
    apply String.eqb_eq in E. congruence.
  - destruct (String.eqb k k0) eqn:E; simpl.
    + apply String.eqb_eq in E. subst k0.
      destruct (String.eqb k' k) eqn:E'; [|done].
      apply String.eqb_eq in E'. congruence.
    + by rewrite IH.
Qed.

Lemma dict_keys_set_present k v d :
  is_Some (dict_get k d) → dict_keys (dict_set k v d) = dict_keys d.
Proof.
  unfold dict_keys. induction d as [|[k0 v0] d IH]; simpl.
  - by intros [? ?].
  - destruct (String.eqb k k0) eqn:E; simpl.
    + apply String.eqb_eq in E. by subst.
    + intros H. by rewrite IH.
Qed.

Lemma append_messages_from acc entries :
  fold_left (fun (sent_messages : list pyval) sent_message_data =>
               sent_messages ++ [VEntity (new_entity Message sent_message_data)])
    entries acc = acc ++ materialize entries.
Proof.
  revert acc. induction entries as [|d entries IH]; intros acc; simpl.
  - by rewrite app_nil_r.
  - rewrite IH. by rewrite <- app_assoc.
Qed.

Lemma append_messages_materialize entries :
  append_messages entries = materialize entries.
Proof. unfold append_messages. by rewrite append_messages_from. Qed.

(** What [invoke] does with a response that is a mapping. *)
Lemma invoke_run options w b m s' :
  base_api_path (self w) = Ok b →
  dispatch (server w) (Request POST (b +:+ "/invoke") (Some (VDict options)))
    = (Ok (VDict m), s') →
  invoke options w =
    (match dict_get "sent_messages" m with
     | None => Ok (VDict m)
     | Some coll =>
         match py_iter coll with
         | Ok entries =>
             Ok (VDict (dict_set "sent_messages" (VList (materialize entries)) m))
         | Raise x => Raise x
         end
     end,
     World (self w)
       (log w ++ [Request POST (b +:+ "/invoke") (Some (VDict options))]) s').
Proof.
  intros Hb Hd. mrun. rewrite Hb. simpl. rewrite Hd. simpl.
  destruct (dict_get "sent_messages" m) as [coll|]; simpl; [|done].
  destruct (py_iter coll); simpl; [|done].
  by rewrite append_messages_materialize.
Qed.

(** Whatever the dispatcher answers, [invoke] has sent one request. *)
Lemma invoke_world options w b :
  base_api_path (self w) = Ok b →
  (invoke options w).2 =
    World (self w)
      (log w ++ [Request POST (b +:+ "/invoke") (Some (VDict options))])
      (dispatch (server w)
         (Request POST (b +:+ "/invoke") (Some (VDict options)))).2.
Proof.
  intros Hb. mrun. rewrite Hb. simpl.
  destruct (dispatch _ _) as [[d|x] s']; simpl; [|done].
  repeat case_match; simplify_eq; done.
Qed.

Lemma invoke_raise options w b x :
  base_api_path (self w) = Ok b →
  (dispatch (server w)
     (Request POST (b +:+ "/invoke") (Some (VDict options)))).1 = Raise x →
  (invoke options w).1 = Raise x.
Proof.
  intros Hb Hx. mrun. rewrite Hb. simpl.
  destruct (dispatch _ _) as [r s']. simpl in Hx. by subst r.
Qed.

Lemma materialize_lookup entries i d :
  entries !! i = Some d →
  materialize entries !! i = Some (VEntity (new_entity Message d)).
Proof. intros H. unfold materialize. by rewrite list_lookup_fmap, H. Qed.

(** C1: when the response mapping of [invoke] has a [sent_messages] list,
    the returned mapping holds, under that key, the [Message] entity built
    from each raw entry; without the key the response is returned as it
    is. *)
Theorem invoke_materializes_sent_messages options w b m s' :
  base_api_path (self w) = Ok b →
  dispatch (server w) (Request POST (b +:+ "/invoke") (Some (VDict options)))
    = (Ok (VDict m), s') →
  (∀ raw, dict_get "sent_messages" m = Some (VList raw) →
     ∃ m', (invoke options w).1 = Ok (VDict m') ∧
           dict_get "sent_messages" m' = Some (VList (materialize raw)) ∧
           Forall (λ v, ∃ d, v = VEntity (MkEntity Message d ∅) ∧ d ∈ raw)
             (materialize raw))
  ∧ (dict_get "sent_messages" m = None →
     (invoke options w).1 = Ok (VDict m)).
Proof.
  intros Hb Hd. rewrite (invoke_run _ _ _ _ _ Hb Hd). simpl. split.
  - intros raw Hraw. rewrite Hraw. simpl. eexists. split; [done|]. split.
    + apply dict_get_set_eq.
    + unfold materialize. apply Forall_fmap, Forall_forall.
      intros d Hin. simpl. by exists d.
  - intros Hnone. by rewrite Hnone.
Qed.

(** C9: [invoke] returns the keys and values of the response, except that
    a [sent_messages] list is replaced by a list of the same length whose
    item at each index is the [Message] of the raw entry at that index. *)
Theorem invoke_frame options w b m s' :
  base_api_path (self w) = Ok b →
  dispatch (server w) (Request POST (b +:+ "/invoke") (Some (VDict options)))
    = (Ok (VDict m), s') →
  (dict_get "sent_messages" m = None →
     (invoke options w).1 = Ok (VDict m))
  ∧ (∀ raw, dict_get "sent_messages" m = Some (VList raw) →
     ∃ m' msgs,
       (invoke options w).1 = Ok (VDict m') ∧
       dict_keys m' = dict_keys m ∧
       (∀ k, k ≠ "sent_messages" → dict_get k m' = dict_get k m) ∧
       dict_get "sent_messages" m' = Some (VList msgs) ∧
       length msgs = length raw ∧
       (∀ i d, raw !! i = Some d →
               msgs !! i = Some (VEntity (new_entity Message d)))).
Proof.
  intros Hb Hd. rewrite (invoke_run _ _ _ _ _ Hb Hd). simpl. split.
  - intros Hnone. by rewrite Hnone.
  - intros raw Hraw. rewrite Hraw. simpl.
    exists (dict_set "sent_messages" (VList (materialize raw)) m),
      (materialize raw).
    split; [done|]. split; [by apply dict_keys_set_present; rewrite Hraw|].
    split; [intros k Hk; by apply dict_get_set_ne|].
    split; [apply dict_get_set_eq|].
    split; [unfold materialize; by rewrite length_map|].
    apply materialize_lookup.
Qed.

(** C4, as the code has it: [invoke] checks nothing about [context].
    Whatever the options are, they go out unchanged as the body of one POST
    to the [/invoke] path, and a rejection by the server is raised to the
    caller. *)
Theorem invoke_sends_options_unchecked options w b :
  base_api_path (self w) = Ok b →
  log (invoke options w).2 =
    log w ++ [Request POST (b +:+ "/invoke") (Some (VDict options))]
  ∧ (∀ x, (dispatch (server w)
             (Request POST (b +:+ "/invoke") (Some (VDict options)))).1
            = Raise x →
          (invoke options w).1 = Raise x).
Proof.
  intros Hb. split.
  - by rewrite (invoke_world _ _ _ Hb).
  - intros x. by apply invoke_raise.
Qed.

(** *** The per-contact state methods *)

Lemma getContactState_run contact w b c :
  base_api_path (self w) = Ok b →
  getattr contact "id" = Ok (VStr c) →
  getContactState contact w =
    (wrap_state
       (dispatch (server w) (Request GET ((b +:+ "/states/") +:+ c) None)).1,
     World (self w)
       (log w ++ [Request GET ((b +:+ "/states/") +:+ c) None])
       (dispatch (server w) (Request GET ((b +:+ "/states/") +:+ c) None)).2).
Proof.
  intros Hb Hc. mrun. rewrite Hb. simpl. rewrite Hc. simpl.
  by destruct (dispatch _ _) as [[d|x] s'].
Qed.

Lemma setContactState_run contact options w b c :
  base_api_path (self w) = Ok b →
  getattr contact "id" = Ok (VStr c) →
  setContactState contact options w =
    (wrap_state
       (dispatch (server w)
          (Request POST ((b +:+ "/states/") +:+ c) (Some (VDict options)))).1,
     World (self w)
       (log w ++
          [Request POST ((b +:+ "/states/") +:+ c) (Some (VDict options))])
       (dispatch (server w)
          (Request POST ((b +:+ "/states/") +:+ c) (Some (VDict options)))).2).
Proof.
  intros Hb Hc. mrun. rewrite Hb. simpl. rewrite Hc. simpl.
  by destruct (dispatch _ _) as [[d|x] s'].
Qed.

Lemma resetContactState_run contact w b c :
  base_api_path (self w) = Ok b →
  getattr contact "id" = Ok (VStr c) →
  resetContactState contact w =
    (wrap_state
       (dispatch (server w)
          (Request DELETE ((b +:+ "/states/") +:+ c) None)).1,
     World (self w)
       (log w ++ [Request DELETE ((b +:+ "/states/") +:+ c) None])
       (dispatch (server w)
          (Request DELETE ((b +:+ "/states/") +:+ c) None)).2).
Proof.
  intros Hb Hc. mrun. rewrite Hb. simpl. rewrite Hc. simpl.
  by destruct (dispatch _ _) as [[d|x] s'].
Qed.

(** Without a string id on the contact, the path cannot be built. *)
Lemma state_path_fails contact w (k : string → M pyval) :
  (∀ c, getattr contact "id" ≠ Ok (VStr c)) →
  ∃ x, (base <- getBaseApiPath ;;
        contact_id <- lift (getattr contact "id") ;;
        path <- lift (py_add_str (base +:+ "/states/") contact_id) ;;
        data <- k path ;;
        ret (new_entity ContactServiceState data)) w = (Raise x, w).
Proof.
  intros Hid. mrun.
  destruct (base_api_path (self w)) as [b|x]; simpl; [|by eexists].
  destruct (getattr contact "id") as [v|x]; simpl; [|by eexists].
  destruct v; simpl; try by eexists.
  by destruct (Hid s).
Qed.

Lemma base_api_path_strings e p s :
  getattr e "project_id" = Ok (VStr p) →
  getattr e "id" = Ok (VStr s) →
  base_api_path e = Ok ("/projects/" +:+ p +:+ "/services/" +:+ s).
Proof. intros Hp Hs. unfold base_api_path. by rewrite Hp, Hs. Qed.

(** C3: when the server answers the GET for a contact without state with
    the null-id placeholder, [getContactState] returns it as a
    [ContactServiceState] whose id is null; nothing is raised. *)
Theorem getContactState_placeholder contact w b c m s' :
  base_api_path (self w) = Ok b →
  getattr contact "id" = Ok (VStr c) →
  dispatch (server w) (Request GET ((b +:+ "/states/") +:+ c) None)
    = (Ok (VDict m), s') →
  dict_get "id" m = Some VNone →
  ∃ st, (getContactState contact w).1 = Ok st ∧
        entity_cls st = ContactServiceState ∧
        entity_data st = VDict m ∧
        getattr st "id" = Ok VNone ∧
        ∀ msg, (getContactState contact w).1 ≠ Raise (NotFoundError msg).
Proof.
  intros Hb Hc Hd Hid. rewrite (getContactState_run _ _ _ _ Hb Hc), Hd. simpl.
  eexists. split; [done|]. split; [done|]. split; [done|]. split; [|done].
  unfold getattr. simpl. by rewrite Hid.
Qed.

(** C7: the base path of a service is
    [/projects/<project_id>/services/<id>], and every method sends its
    request to that path followed by its own suffix. *)
Theorem service_paths w p s :
  getattr (self w) "project_id" = Ok (VStr p) →
  getattr (self w) "id" = Ok (VStr s) →
  (getBaseApiPath w).1 = Ok ("/projects/" +:+ p +:+ "/services/" +:+ s)
  ∧ (∀ options,
       log (invoke options w).2 =
       log w ++ [Request POST
                   (("/projects/" +:+ p +:+ "/services/" +:+ s) +:+ "/invoke")
                   (Some (VDict options))])
  ∧ (∀ contact c, getattr contact "id" = Ok (VStr c) →
       log (getContactState contact w).2 =
         log w ++ [Request GET
                     ((("/projects/" +:+ p +:+ "/services/" +:+ s)
                         +:+ "/states/") +:+ c) None]
       ∧ (∀ options,
            log (setContactState contact options w).2 =
            log w ++ [Request POST
                        ((("/projects/" +:+ p +:+ "/services/" +:+ s)
                            +:+ "/states/") +:+ c) (Some (VDict options))])
       ∧ log (resetContactState contact w).2 =
         log w ++ [Request DELETE
                     ((("/projects/" +:+ p +:+ "/services/" +:+ s)
                         +:+ "/states/") +:+ c) None])
  ∧ (∀ options,
       (queryContactStates options w).1 =
       Ok (MkCursor ContactServiceState
             (("/projects/" +:+ p +:+ "/services/" +:+ s) +:+ "/states")
             options Unfetched)).
Proof.
  intros Hp Hs. pose proof (base_api_path_strings _ _ _ Hp Hs) as Hb.
  split; [by mrun; rewrite Hb|].
  split; [intros options; by rewrite (invoke_world _ _ _ Hb)|].
  split.
  - intros contact c Hc.
    rewrite (getContactState_run _ _ _ _ Hb Hc),
      (resetContactState_run _ _ _ _ Hb Hc).
    split; [done|]. split; [|done].
    intros options. by rewrite (setContactState_run _ _ _ _ _ Hb Hc).
  - intros options. mrun. by rewrite Hb.
Qed.

(** C10: the three state methods send their request to the base path
    followed by [/states/] and the id of the contact; when the contact has
    no string id each of them raises before any request goes out. *)
Theorem state_methods_share_path contact w :
  (∀ b c, base_api_path (self w) = Ok b →
          getattr contact "id" = Ok (VStr c) →
     log (getContactState contact w).2 =
       log w ++ [Request GET ((b +:+ "/states/") +:+ c) None]
     ∧ (∀ options,
          log (setContactState contact options w).2 =
          log w ++ [Request POST ((b +:+ "/states/") +:+ c)
                      (Some (VDict options))])
     ∧ log (resetContactState contact w).2 =
       log w ++ [Request DELETE ((b +:+ "/states/") +:+ c) None])
  ∧ ((∀ c, getattr contact "id" ≠ Ok (VStr c)) →
     (∃ x, getContactState contact w = (Raise x, w))
     ∧ (∀ options, ∃ x, setContactState contact options w = (Raise x, w))
     ∧ (∃ x, resetContactState contact w = (Raise x, w))).
Proof.
  split.
  - intros b c Hb Hc.
    rewrite (getContactState_run _ _ _ _ Hb Hc),
      (resetContactState_run _ _ _ _ Hb Hc).
    split; [done|]. split; [|done].
    intros options. by rewrite (setContactState_run _ _ _ _ _ Hb Hc).
  - intros Hid. split; [|split].
    + apply (state_path_fails contact w (λ path, doRequest GET path None) Hid).
    + intros options.
      apply (state_path_fails contact w
               (λ path, doRequest POST path (Some (VDict options))) Hid).
    + apply (state_path_fails contact w
               (λ path, doRequest DELETE path None) Hid).
Qed.

(** *** Cursors and saving *)

Lemma queryContactStates_world options w :
  (queryContactStates options w).2 = w.
Proof. mrun. by destruct (base_api_path (self w)). Qed.

(** C5: [queryContactStates] returns an unfetched cursor of
    [ContactServiceState] over the [/states] path with the given options
    and sends nothing; the first access to that cursor sends the GET with
    those options. *)
Theorem queryContactStates_lazy options w b :
  base_api_path (self w) = Ok b →
  queryContactStates options w =
    (Ok (MkCursor ContactServiceState (b +:+ "/states") options Unfetched), w)
  ∧ log (queryContactStates options w).2 = log w
  ∧ log (cursor_next
           (MkCursor ContactServiceState (b +:+ "/states") options Unfetched)
           w).2
    = log w ++ [Request GET (b +:+ "/states") (Some (VDict options))].
Proof.
  intros Hb. split; [by mrun; rewrite Hb|].
  split; [by rewrite queryContactStates_world|].
  mrun. destruct (dispatch _ _) as [[page|x] s']; simpl; [|done].
  by destruct (page_items page).
Qed.

Lemma dirty_fields_clean e : entity_dirty e = ∅ → dirty_fields e = [].
Proof.
  intros He. unfold dirty_fields. rewrite He.
  destruct (entity_data e); try done.
  induction d as [|kv d IH]; [done|].
  rewrite filter_cons. by destruct (decide (kv.1 ∈ (∅ : gset string))).
Qed.

Lemma dirty_fields_spec e k v :
  (k, v) ∈ dirty_fields e ↔
  k ∈ entity_dirty e ∧ ∃ fields, entity_data e = VDict fields ∧ (k, v) ∈ fields.
Proof.
  unfold dirty_fields. destruct (entity_data e) as [| | | | |fields|].
  6:{ rewrite list_elem_of_filter. simpl. split.
      - intros [Hk Hin]. split; [done|]. by exists fields.
      - intros [Hk [fields' [Heq Hin]]]. by simplify_eq. }
  all: split; [by intros ?%elem_of_nil|by intros [_ [? [? _]]]].
Qed.

Lemma entity_eta e : MkEntity (entity_cls e) (entity_data e) (entity_dirty e) = e.
Proof. by destruct e. Qed.

Lemma save_run w b :
  base_api_path (self w) = Ok b →
  save_skips_clean && bool_decide (entity_dirty (self w) = ∅) = false →
  save w =
    (match (dispatch (server w)
              (Request POST b (Some (VDict (dirty_fields (self w)))))).1 with
     | Ok _ => Ok tt
     | Raise x => Raise x
     end,
     World
       (match (dispatch (server w)
                 (Request POST b (Some (VDict (dirty_fields (self w)))))).1 with
        | Ok _ => MkEntity (entity_cls (self w)) (entity_data (self w)) ∅
        | Raise _ => self w
        end)
       (log w ++ [Request POST b (Some (VDict (dirty_fields (self w))))])
       (dispatch (server w)
          (Request POST b (Some (VDict (dirty_fields (self w)))))).2).
Proof.
  intros Hb Hgo. mrun. rewrite Hgo, Hb. simpl.
  by destruct (dispatch _ _) as [[d|x] s'].
Qed.

(** C6: a [save] with nothing dirty either sends nothing and returns, or
    sends one POST without fields and returns once the server accepted it;
    a [save] with dirty fields sends exactly those fields and, on success,
    empties the dirty set and keeps the field mapping. *)
Theorem save_sends_dirty_fields w b :
  base_api_path (self w) = Ok b →
  (entity_dirty (self w) = ∅ →
     (save_skips_clean = true → save w = (Ok tt, w))
     ∧ (save_skips_clean = false →
        ∀ d s', dispatch (server w) (Request POST b (Some (VDict [])))
                  = (Ok d, s') →
        save w =
          (Ok tt,
           World (self w) (log w ++ [Request POST b (Some (VDict []))]) s')))
  ∧ (entity_dirty (self w) ≠ ∅ →
     ∀ d s', dispatch (server w)
               (Request POST b (Some (VDict (dirty_fields (self w)))))
               = (Ok d, s') →
     save w =
       (Ok tt,
        World (MkEntity (entity_cls (self w)) (entity_data (self w)) ∅)
          (log w ++ [Request POST b (Some (VDict (dirty_fields (self w))))])
          s'))
  ∧ (∀ k v, (k, v) ∈ dirty_fields (self w) ↔
       k ∈ entity_dirty (self w) ∧
       ∃ fields, entity_data (self w) = VDict fields ∧ (k, v) ∈ fields).
Proof.
  intros Hb. split; [|split].
  - intros Hclean. split.
    + intros Hskip. mrun. rewrite Hskip. simpl.
      by rewrite bool_decide_eq_true_2.
    + intros Hskip d s' Hd.
      rewrite (save_run _ _ Hb) by (by rewrite Hskip).
      rewrite (dirty_fields_clean _ Hclean), Hd. simpl.
      by rewrite <- Hclean, entity_eta.
  - intros Hdirty d s' Hd.
    rewrite (save_run _ _ Hb).
    + by rewrite Hd.
    + rewrite bool_decide_eq_false_2 by done. apply andb_false_r.
  - intros k v. apply dirty_fields_spec.
Qed.

(** C8: when the dispatcher raises on the request of a method, the method
    raises the same error, that request is the only one sent, and the
    entity is as it was before the call. *)
Theorem dispatcher_errors_propagate w b x s' :
  base_api_path (self w) = Ok b →
  (∀ options,
     dispatch (server w)
       (Request POST (b +:+ "/invoke") (Some (VDict options))) = (Raise x, s') →
     invoke options w =
       (Raise x,
        World (self w)
          (log w ++ [Request POST (b +:+ "/invoke") (Some (VDict options))])
          s'))
  ∧ (∀ contact c, getattr contact "id" = Ok (VStr c) →
       (dispatch (server w) (Request GET ((b +:+ "/states/") +:+ c) None)
          = (Raise x, s') →
        getContactState contact w =
          (Raise x,
           World (self w)
             (log w ++ [Request GET ((b +:+ "/states/") +:+ c) None]) s'))
       ∧ (∀ options,
            dispatch (server w)
              (Request POST ((b +:+ "/states/") +:+ c) (Some (VDict options)))
              = (Raise x, s') →
            setContactState contact options w =
              (Raise x,
               World (self w)
                 (log w ++ [Request POST ((b +:+ "/states/") +:+ c)
                              (Some (VDict options))]) s'))
       ∧ (dispatch (server w)
            (Request DELETE ((b +:+ "/states/") +:+ c) None) = (Raise x, s') →
          resetContactState contact w =
            (Raise x,
             World (self w)
               (log w ++ [Request DELETE ((b +:+ "/states/") +:+ c) None])
               s')))
  ∧ (∀ options,
       dispatch (server w)
         (Request GET (b +:+ "/states") (Some (VDict options))) = (Raise x, s') →
       ∃ c, queryContactStates options w = (Ok c, w) ∧
            cursor_next c w =
              (Raise x,
               World (self w)
                 (log w ++ [Request GET (b +:+ "/states")
                              (Some (VDict options))]) s'))
  ∧ (save_skips_clean && bool_decide (entity_dirty (self w) = ∅) = false →
     dispatch (server w)
       (Request POST b (Some (VDict (dirty_fields (self w))))) = (Raise x, s') →
     save w =
       (Raise x,
        World (self w)
          (log w ++ [Request POST b (Some (VDict (dirty_fields (self w))))])
          s')).
Proof.
  intros Hb. split; [|split; [|split]].
  - intros options Hd. apply injective_projections.
    + apply invoke_raise with (b := b); [done|by rewrite Hd].
    + by rewrite (invoke_world _ _ _ Hb), Hd.
  - intros contact c Hc. split; [|split].
    + intros Hd. by rewrite (getContactState_run _ _ _ _ Hb Hc), Hd.
    + intros options Hd. by rewrite (setContactState_run _ _ _ _ _ Hb Hc), Hd.
    + intros Hd. by rewrite (resetContactState_run _ _ _ _ Hb Hc), Hd.
  - intros options Hd. eexists. split.
    + mrun. by rewrite Hb.
    + mrun. by rewrite Hd.
  - intros Hgo Hd. by rewrite (save_run _ _ Hb Hgo), Hd.
Qed.

(** *** Further properties of [invoke] *)

Lemma dict_set_same k v d : dict_get k d = Some v → dict_set k v d = d.
Proof.
  induction d as [|[k' v'] d IH]; simpl; [done|].
  destruct (String.eqb k k') eqn:E.
  - apply String.eqb_eq in E. intros [= ->]. by subst.
  - intros H. by rewrite IH.
Qed.

Lemma materialize_fixed raw :
  Forall (λ d, is_entity d = false) raw → materialize raw = raw → raw = [].
Proof.
  intros Hjson Heq. destruct raw as [|d raw]; [done|].
  apply Forall_cons in Hjson as [Hd _]. simpl in Heq.
  injection Heq as Hhead _. by rewrite <- Hhead in Hd.
Qed.

(** The response comes back unchanged from [invoke] exactly when its
    [sent_messages] list is empty (the raw entries being JSON data). *)
Theorem invoke_identity_iff_no_messages options w b m s' raw :
  base_api_path (self w) = Ok b →
  dispatch (server w) (Request POST (b +:+ "/invoke") (Some (VDict options)))
    = (Ok (VDict m), s') →
  dict_get "sent_messages" m = Some (VList raw) →
  Forall (λ d, is_entity d = false) raw →
  (invoke options w).1 = Ok (VDict m) ↔ raw = [].
Proof.
  intros Hb Hd Hraw Hjson. rewrite (invoke_run _ _ _ _ _ Hb Hd), Hraw. simpl.
  split.
  - intros [= Hm]. apply materialize_fixed; [done|].
    apply (f_equal (dict_get "sent_messages")) in Hm.
    rewrite dict_get_set_eq, Hraw in Hm. by injection Hm.
  - intros ->. simpl. by rewrite (dict_set_same _ _ _ Hraw).
Qed.

Lemma existsb_is_str_false k l :
  VStr k ∉ l → existsb (is_str k) l = false.
Proof.
  induction l as [|v l IH]; [done|].
  intros Hnot. simpl. rewrite IH by (intros ?; apply Hnot; by right).
  destruct v; try done. simpl.
  destruct (String.eqb k s) eqn:E; [|done].
  apply String.eqb_eq in E. subst. destruct Hnot. by left.
Qed.

(** A response that is no mapping: a null, a boolean or a number makes
    [invoke] raise [TypeError] once the request has been sent; a list that
    does not hold the string [sent_messages] is returned as it is. *)
Theorem invoke_non_mapping_response options w b d s' :
  base_api_path (self w) = Ok b →
  dispatch (server w) (Request POST (b +:+ "/invoke") (Some (VDict options)))
    = (Ok d, s') →
  (is_scalar d = true →
     invoke options w =
       (Raise TypeError,
        World (self w)
          (log w ++ [Request POST (b +:+ "/invoke") (Some (VDict options))])
          s'))
  ∧ (∀ l, d = VList l → VStr "sent_messages" ∉ l →
       invoke options w =
         (Ok (VList l),
          World (self w)
            (log w ++ [Request POST (b +:+ "/invoke") (Some (VDict options))])
            s')).
Proof.
  intros Hb Hd. split.
  - intros Hs. mrun. rewrite Hb. simpl. rewrite Hd.
    by destruct d.
  - intros l -> Hnot. mrun. rewrite Hb. simpl. rewrite Hd. simpl.
    by rewrite (existsb_is_str_false _ _ Hnot).
Qed.

(** A [sent_messages] that is a null, a boolean or a number cannot be
    iterated: [invoke] raises [TypeError], and the request has been sent. *)
Theorem invoke_sent_messages_not_iterable options w b m s' v :
  base_api_path (self w) = Ok b →
  dispatch (server w) (Request POST (b +:+ "/invoke") (Some (VDict options)))
    = (Ok (VDict m), s') →
  dict_get "sent_messages" m = Some v →
  is_scalar v = true →
  invoke options w =
    (Raise TypeError,
     World (self w)
       (log w ++ [Request POST (b +:+ "/invoke") (Some (VDict options))]) s').
Proof.
  intros Hb Hd Hv Hs. rewrite (invoke_run _ _ _ _ _ Hb Hd), Hv.
  by destruct v.
Qed.

(** *** Further properties of the paths *)

(** The [%s] conversion accepts a null: a service whose [project_id] is
    [None] is not refused, its requests go to [/projects/None/...]. *)
Theorem null_project_id_is_formatted w s :
  getattr (self w) "project_id" = Ok VNone →
  getattr (self w) "id" = Ok (VStr s) →
  (getBaseApiPath w).1 = Ok ("/projects/None/services/" +:+ s)
  ∧ (∀ options,
       log (invoke options w).2 =
       log w ++ [Request POST (("/projects/None/services/" +:+ s) +:+ "/invoke")
                   (Some (VDict options))])
  ∧ (∀ options,
       (queryContactStates options w).1 =
       Ok (MkCursor ContactServiceState
             (("/projects/None/services/" +:+ s) +:+ "/states")
             options Unfetched)).
Proof.
  intros Hp Hs.
  assert (base_api_path (self w) = Ok ("/projects/None/services/" +:+ s))
    as Hb by (unfold base_api_path; by rewrite Hp, Hs).
  split; [by mrun; rewrite Hb|]. split.
  - intros options. by rewrite (invoke_world _ _ _ Hb).
  - intros options. mrun. by rewrite Hb.
Qed.

Lemma append_cons x (a b : string) : String x a +:+ b = String x (a +:+ b).
Proof. reflexivity. Qed.

Lemma append_nil (b : string) : "" +:+ b = b.
Proof. reflexivity. Qed.

Lemma append_assoc (a b c : string) : (a +:+ b) +:+ c = a +:+ (b +:+ c).
Proof.
  induction a as [|x a IH]; [done|]. by rewrite !append_cons, IH.
Qed.

(** Two strings cut at their first separator agree part by part. *)
Lemma append_slash_inj p p' r r' :
  slash_free p = true → slash_free p' = true →
  p +:+ ("/" +:+ r) = p' +:+ ("/" +:+ r') → p = p' ∧ r = r'.
Proof.
  revert p'. induction p as [|x p IH]; intros [|x' p'] Hp Hp' Heq;
    rewrite ?append_cons, ?append_nil in Heq.
  - by injection Heq.
  - injection Heq as <- _. by vm_compute in Hp'.
  - injection Heq as -> _. by vm_compute in Hp.
  - injection Heq as -> Heq.
    change (slash_free (String x' p))
      with (negb (String.eqb (String x' "") "/") && slash_free p) in Hp.
    change (slash_free (String x' p'))
      with (negb (String.eqb (String x' "") "/") && slash_free p') in Hp'.
    apply andb_true_iff in Hp as [_ Hp]. apply andb_true_iff in Hp' as [_ Hp'].
    destruct (IH p' Hp Hp' Heq) as [-> ->]. done.
Qed.

(** Two services whose project ids hold no [/] have the same base path
    only if they have the same project id and the same id. *)
Theorem base_api_path_injective e e' p s p' s' b :
  getattr e "project_id" = Ok (VStr p) → getattr e "id" = Ok (VStr s) →
  getattr e' "project_id" = Ok (VStr p') → getattr e' "id" = Ok (VStr s') →
  slash_free p = true → slash_free p' = true →
  base_api_path e = Ok b → base_api_path e' = Ok b →
  p = p' ∧ s = s'.
Proof.
  intros Hp Hs Hp' Hs' Hfree Hfree'.
  rewrite (base_api_path_strings _ _ _ Hp Hs),
    (base_api_path_strings _ _ _ Hp' Hs').
  intros [= <-] [= Heq]. rewrite !append_cons, !append_nil in Heq.
  destruct (append_slash_inj _ _ _ _ Hfree' Hfree Heq) as [-> Hrest].
  split; [done|]. rewrite ?append_cons, ?append_nil in Hrest.
  by injection Hrest.
Qed.

Lemma state_path_inj p s c p' s' c' :
  slash_free p = true → slash_free s = true →
  slash_free p' = true → slash_free s' = true →
  (("/projects/" +:+ p +:+ "/services/" +:+ s) +:+ "/states/") +:+ c
  = (("/projects/" +:+ p' +:+ "/services/" +:+ s') +:+ "/states/") +:+ c' →
  p = p' ∧ s = s' ∧ c = c'.
Proof.
  intros Hp Hs Hp' Hs' Heq.
  rewrite !append_assoc, !append_cons, !append_nil in Heq.
  injection Heq as Heq.
  destruct (append_slash_inj _ _ _ _ Hp Hp' Heq) as [-> Hrest].
  injection Hrest as Hrest.
  destruct (append_slash_inj _ _ _ _ Hs Hs' Hrest) as [-> Hc].
  by injection Hc as ->.
Qed.

(** When no id of a service holds a [/], the request of a state method
    tells the resource: two calls whose requests go to the same path are
    for the same project, the same service and the same contact.  So a
    reset for one contact never reaches the state of another. *)
Theorem state_requests_identify_resource w w' contact contact'
    p s c p' s' c' rq rq' :
  getattr (self w) "project_id" = Ok (VStr p) →
  getattr (self w) "id" = Ok (VStr s) →
  getattr contact "id" = Ok (VStr c) →
  getattr (self w') "project_id" = Ok (VStr p') →
  getattr (self w') "id" = Ok (VStr s') →
  getattr contact' "id" = Ok (VStr c') →
  slash_free p = true → slash_free s = true →
  slash_free p' = true → slash_free s' = true →
  last (log (resetContactState contact w).2) = Some rq →
  (last (log (getContactState contact' w').2) = Some rq'
   ∨ (∃ options,
        last (log (setContactState contact' options w').2) = Some rq')
   ∨ last (log (resetContactState contact' w').2) = Some rq') →
  req_path rq = req_path rq' →
  p = p' ∧ s = s' ∧ c = c'.
Proof.
  intros Hp Hs Hc Hp' Hs' Hc' Fp Fs Fp' Fs' Hrq Hrq' Hpath.
  pose proof (base_api_path_strings _ _ _ Hp Hs) as Hb.
  pose proof (base_api_path_strings _ _ _ Hp' Hs') as Hb'.
  rewrite (resetContactState_run _ _ _ _ Hb Hc) in Hrq. simpl in Hrq.
  rewrite last_snoc in Hrq. injection Hrq as <-.
  assert (req_path rq' =
          (("/projects/" +:+ p' +:+ "/services/" +:+ s') +:+ "/states/")
            +:+ c') as Hrq''.
  { destruct Hrq' as [H|[[options H]|H]].
    - rewrite (getContactState_run _ _ _ _ Hb' Hc') in H. simpl in H.
      rewrite last_snoc in H. by injection H as <-.
    - rewrite (setContactState_run _ _ _ _ _ Hb' Hc') in H. simpl in H.
      rewrite last_snoc in H. by injection H as <-.
    - rewrite (resetContactState_run _ _ _ _ Hb' Hc') in H. simpl in H.
      rewrite last_snoc in H. by injection H as <-. }
  rewrite Hrq'' in Hpath. simpl in Hpath.
  by apply state_path_inj.
Qed.

(** A contact whose [id] is read but is no string (a null, a number, ...)
    makes the concatenation of the path fail: each state method raises
    [TypeError], and nothing is sent. *)
Theorem state_methods_non_string_id contact w b v :
  base_api_path (self w) = Ok b →
  getattr contact "id" = Ok v →
  (∀ c, v ≠ VStr c) →
  getContactState contact w = (Raise TypeError, w)
  ∧ (∀ options, setContactState contact options w = (Raise TypeError, w))
  ∧ resetContactState contact w = (Raise TypeError, w).
Proof.
  intros Hb Hv Hne.
  assert (py_add_str (b +:+ "/states/") v = Raise TypeError) as Hadd.
  { destruct v; try done. by destruct (Hne s). }
  repeat split; intros; mrun; rewrite Hb; simpl; rewrite Hv; simpl;
    by rewrite Hadd.
Qed.

(** Calls compose in order: a [getContactState] after a [setContactState]
    for the same contact goes to the same path, is answered from the
    remote side the POST left, and the log holds the POST, then the GET. *)
Theorem set_then_get_requests contact options w b c r s1 :
  base_api_path (self w) = Ok b →
  getattr contact "id" = Ok (VStr c) →
  dispatch (server w)
    (Request POST ((b +:+ "/states/") +:+ c) (Some (VDict options))) = (r, s1) →
  getContactState contact (setContactState contact options w).2 =
    (wrap_state (dispatch s1 (Request GET ((b +:+ "/states/") +:+ c) None)).1,
     World (self w)
       (log w ++
          [Request POST ((b +:+ "/states/") +:+ c) (Some (VDict options));
           Request GET ((b +:+ "/states/") +:+ c) None])
       (dispatch s1 (Request GET ((b +:+ "/states/") +:+ c) None)).2).
Proof.
  intros Hb Hc Hd.
  rewrite (setContactState_run _ _ _ _ _ Hb Hc), Hd. simpl.
  rewrite (getContactState_run _ _ b c) by done. simpl.
  by rewrite <- app_assoc.
Qed.

End Client.

Arguments invoke {remote} dispatch py_repr options w.
Arguments getContactState {remote} dispatch py_repr contact w.
Arguments setContactState {remote} dispatch py_repr contact options w.
Arguments resetContactState {remote} dispatch py_repr contact w.
Arguments queryContactStates {remote} py_repr options w.
Arguments cursor_next {remote} dispatch page_items page_marker
  next_page_params c w.
Arguments save {remote} dispatch py_repr save_skips_clean w.
Arguments getBaseApiPath {remote} py_repr w.

(** ** Examples on the stub server *)

(** A state that is set can be read back. *)
Example set_then_get_state :
  (getContactState stub_dispatch stub_repr contact1
     (setContactState stub_dispatch stub_repr contact1
        [("id", VStr "q1"); ("vars", VDict [("a", VInt 1)])] world1).2).1
  = Ok (new_entity ContactServiceState
          (VDict [("id", VStr "q1"); ("vars", VDict [("a", VInt 1)])])).
Proof. reflexivity. Qed.

(** Resetting a contact without state succeeds. *)
Example reset_empty_state :
  resetContactState stub_dispatch stub_repr contact1 world1
  = (Ok (new_entity ContactServiceState placeholder),
     World service1 [Request DELETE state_path1 None] []).
Proof. reflexivity. Qed.

(** A [sent_messages] that is not a collection cannot be iterated. *)
Example invoke_null_sent_messages :
  (invoke (λ (st : unit) _, (Ok (VDict [("sent_messages", VNone)]), st))
     stub_repr contact_options (World service1 [] tt)).1
  = Raise TypeError.
Proof. reflexivity. Qed.

(** A cursor over the states of [world2] yields the one state, then ends,
    with a single request. *)
Example cursor_one_state :
  ∃ e c w,
    cursor_next stub_dispatch stub_items stub_marker stub_next_params
      (MkCursor ContactServiceState "/projects/PJ1/services/SV1/states" []
         Unfetched) world2 = (Ok (Some e, c), w)
    ∧ entity_data e = state_q1
    ∧ cursor_next stub_dispatch stub_items stub_marker stub_next_params c w
      = (Ok (None, c), w)
    ∧ length (log w) = 1.
Proof. do 3 eexists. repeat split. Qed.

Lemma invoke_materializes_sent_messages_witness :
  (∃ m', (invoke stub_dispatch stub_repr message_options world1).1
           = Ok (VDict m') ∧
         dict_get "sent_messages" m'
           = Some (VList [VEntity (MkEntity Message raw_message1 ∅)]) ∧
         Forall (λ v, ∃ d, v = VEntity (MkEntity Message d ∅) ∧
                           d ∈ [raw_message1])
           (materialize [raw_message1]))
  ∧ (invoke stub_dispatch stub_repr contact_options world1).1
      = Ok (VDict [("return_value", VNone)]).
Proof.
  split.
  - apply (proj1 (invoke_materializes_sent_messages _ stub_dispatch stub_repr
                    message_options world1 "/projects/PJ1/services/SV1"
                    [("return_value", VNone);
                     ("sent_messages", VList [raw_message1])] []
                    eq_refl eq_refl) [raw_message1] eq_refl).
  - apply (proj2 (invoke_materializes_sent_messages _ stub_dispatch stub_repr
                    contact_options world1 "/projects/PJ1/services/SV1"
                    [("return_value", VNone)] [] eq_refl eq_refl) eq_refl).
Defined.

Lemma invoke_frame_witness :
  (invoke stub_dispatch stub_repr contact_options world1).1
    = Ok (VDict [("return_value", VNone)])
  ∧ ∃ m' msgs,
      (invoke stub_dispatch stub_repr message_options world1).1
        = Ok (VDict m') ∧
      dict_keys m' = ["return_value"; "sent_messages"] ∧
      (∀ k, k ≠ "sent_messages" →
            dict_get k m'
            = dict_get k [("return_value", VNone);
                          ("sent_messages", VList [raw_message1])]) ∧
      dict_get "sent_messages" m' = Some (VList msgs) ∧
      length msgs = 1 ∧
      (∀ i d, [raw_message1] !! i = Some d →
              msgs !! i = Some (VEntity (new_entity Message d))).
Proof.
  split.
  - apply (proj1 (invoke_frame _ stub_dispatch stub_repr contact_options
                    world1 "/projects/PJ1/services/SV1"
                    [("return_value", VNone)] [] eq_refl eq_refl) eq_refl).
  - apply (proj2 (invoke_frame _ stub_dispatch stub_repr message_options
                    world1 "/projects/PJ1/services/SV1"
                    [("return_value", VNone);
                     ("sent_messages", VList [raw_message1])] []
                    eq_refl eq_refl) [raw_message1] eq_refl).
Defined.

(** An [invoke] whose context is none of the four allowed values still
    issues its request; it is the server that rejects it. *)
Lemma invoke_bogus_context_is_sent :
  log (invoke stub_dispatch stub_repr bogus_options world1).2
    = [Request POST invoke_path1 (Some (VDict bogus_options))]
  ∧ log (invoke stub_dispatch stub_repr bogus_options world1).2 ≠ log world1
  ∧ (invoke stub_dispatch stub_repr bogus_options world1).1
      = Raise (InvalidParameterError "context").
Proof.
  split; [reflexivity|]. split; [|reflexivity].
  vm_compute. discriminate.
Qed.

Lemma invoke_sends_options_unchecked_witness :
  log (invoke stub_dispatch stub_repr bogus_options world1).2
    = [Request POST invoke_path1 (Some (VDict bogus_options))]
  ∧ (invoke stub_dispatch stub_repr bogus_options world1).1
      = Raise (InvalidParameterError "context").
Proof.
  destruct (invoke_sends_options_unchecked _ stub_dispatch stub_repr
              bogus_options world1 "/projects/PJ1/services/SV1" eq_refl)
    as [Hlog Hraise].
  split; [exact Hlog|]. by apply Hraise.
Defined.

Lemma getContactState_placeholder_witness :
  ∃ st, (getContactState stub_dispatch stub_repr contact1 world1).1 = Ok st ∧
        entity_cls st = ContactServiceState ∧
        entity_data st = placeholder ∧
        getattr st "id" = Ok VNone ∧
        ∀ msg, (getContactState stub_dispatch stub_repr contact1 world1).1
               ≠ Raise (NotFoundError msg).
Proof.
  exact (getContactState_placeholder _ stub_dispatch stub_repr contact1 world1
           base1 "CT1" [("id", VNone); ("vars", VDict [])] []
           eq_refl eq_refl eq_refl eq_refl).
Defined.

Lemma service_paths_witness :
  (getBaseApiPath stub_repr world1).1 = Ok base1
  ∧ log (invoke stub_dispatch stub_repr contact_options world1).2
    = [Request POST invoke_path1 (Some (VDict contact_options))]
  ∧ log (getContactState stub_dispatch stub_repr contact1 world1).2
    = [Request GET state_path1 None]
  ∧ log (setContactState stub_dispatch stub_repr contact1
           [("id", VStr "q1")] world1).2
    = [Request POST state_path1 (Some (VDict [("id", VStr "q1")]))]
  ∧ log (resetContactState stub_dispatch stub_repr contact1 world1).2
    = [Request DELETE state_path1 None]
  ∧ (queryContactStates stub_repr [("sort_dir", VStr "desc")] world1).1
    = Ok (MkCursor ContactServiceState "/projects/PJ1/services/SV1/states"
            [("sort_dir", VStr "desc")] Unfetched).
Proof.
  destruct (service_paths _ stub_dispatch stub_repr world1 "PJ1" "SV1"
              eq_refl eq_refl) as (Hbase & Hinvoke & Hstate & Hquery).
  destruct (Hstate contact1 "CT1" eq_refl) as (Hget & Hset & Hreset).
  split; [exact Hbase|]. split; [exact (Hinvoke contact_options)|].
  split; [exact Hget|]. split; [exact (Hset [("id", VStr "q1")])|].
  split; [exact Hreset|]. exact (Hquery [("sort_dir", VStr "desc")]).
Defined.

Lemma contact_no_id_has_no_string_id :
  ∀ c, getattr contact_no_id "id" ≠ Ok (VStr c).
Proof. intros c. vm_compute. discriminate. Qed.

Lemma state_methods_share_path_witness :
  (log (getContactState stub_dispatch stub_repr contact1 world1).2
     = [Request GET state_path1 None]
   ∧ log (setContactState stub_dispatch stub_repr contact1
            [("id", VStr "q1")] world1).2
     = [Request POST state_path1 (Some (VDict [("id", VStr "q1")]))]
   ∧ log (resetContactState stub_dispatch stub_repr contact1 world1).2
     = [Request DELETE state_path1 None])
  ∧ (∃ x, getContactState stub_dispatch stub_repr contact_no_id world1
          = (Raise x, world1))
  ∧ (∃ x, setContactState stub_dispatch stub_repr contact_no_id
            [("id", VStr "q1")] world1 = (Raise x, world1))
  ∧ (∃ x, resetContactState stub_dispatch stub_repr contact_no_id world1
          = (Raise x, world1)).
Proof.
  destruct (proj1 (state_methods_share_path _ stub_dispatch stub_repr
                     contact1 world1) base1 "CT1" eq_refl eq_refl)
    as (Hget & Hset & Hreset).
  destruct (proj2 (state_methods_share_path _ stub_dispatch stub_repr
                     contact_no_id world1) contact_no_id_has_no_string_id)
    as (Fget & Fset & Freset).
  split; [split; [exact Hget|split; [exact (Hset _)|exact Hreset]]|].
  split; [exact Fget|]. split; [exact (Fset _)|exact Freset].
Defined.

Lemma queryContactStates_lazy_witness :
  queryContactStates stub_repr [("id[prefix]", VStr "q")] world2
    = (Ok (MkCursor ContactServiceState "/projects/PJ1/services/SV1/states"
             [("id[prefix]", VStr "q")] Unfetched), world2)
  ∧ log (queryContactStates stub_repr [("id[prefix]", VStr "q")] world2).2
    = []
  ∧ log (cursor_next stub_dispatch stub_items stub_marker stub_next_params
           (MkCursor ContactServiceState "/projects/PJ1/services/SV1/states"
              [("id[prefix]", VStr "q")] Unfetched) world2).2
    = [Request GET "/projects/PJ1/services/SV1/states"
         (Some (VDict [("id[prefix]", VStr "q")]))].
Proof.
  exact (queryContactStates_lazy _ stub_dispatch stub_repr stub_items
           stub_marker stub_next_params [("id[prefix]", VStr "q")] world2
           base1 eq_refl).
Defined.

Lemma service1_renamed_is_dirty : entity_dirty (self world3) ≠ ∅.
Proof. vm_compute. discriminate. Qed.

Lemma save_sends_dirty_fields_witness :
  save stub_dispatch stub_repr true world1 = (Ok tt, world1)
  ∧ save stub_dispatch stub_repr false world1
    = (Ok tt, World service1 [Request POST base1 (Some (VDict []))] [])
  ∧ save stub_dispatch stub_repr true world3
    = (Ok tt,
       World (MkEntity Service (entity_data service1_renamed) ∅)
         [Request POST base1 (Some (VDict [("name", VStr "Quiz")]))] [])
  ∧ ("name" ∈ entity_dirty service1_renamed ∧
     ∃ fields, entity_data service1_renamed = VDict fields ∧
               ("name", VStr "Quiz") ∈ fields).
Proof.
  destruct (save_sends_dirty_fields _ stub_dispatch stub_repr true world1
              base1 eq_refl) as (Hclean & _ & _).
  destruct (save_sends_dirty_fields _ stub_dispatch stub_repr false world1
              base1 eq_refl) as (Hclean' & _ & _).
  destruct (save_sends_dirty_fields _ stub_dispatch stub_repr true world3
              base1 eq_refl) as (_ & Hdirty & Hfields).
  split; [exact (proj1 (Hclean eq_refl) eq_refl)|].
  split; [exact (proj2 (Hclean' eq_refl) eq_refl (VDict []) [] eq_refl)|].
  split.
  - exact (Hdirty service1_renamed_is_dirty
             (VDict [("name", VStr "Quiz")]) [] eq_refl).
  - apply (proj1 (Hfields "name" (VStr "Quiz"))).
    change (dirty_fields (self world3)) with [("name", VStr "Quiz")].
    apply list_elem_of_here.
Defined.

Lemma dispatcher_errors_propagate_witness :
  invoke stub_dispatch stub_repr message_options world9
    = (Raise (NotFoundError "project"),
       World service9
         [Request POST "/projects/PJ9/services/SV9/invoke"
            (Some (VDict message_options))] [])
  ∧ getContactState stub_dispatch stub_repr contact1 world9
    = (Raise (NotFoundError "project"),
       World service9
         [Request GET "/projects/PJ9/services/SV9/states/CT1" None] [])
  ∧ setContactState stub_dispatch stub_repr contact1 [("id", VStr "q1")] world9
    = (Raise (NotFoundError "project"),
       World service9
         [Request POST "/projects/PJ9/services/SV9/states/CT1"
            (Some (VDict [("id", VStr "q1")]))] [])
  ∧ resetContactState stub_dispatch stub_repr contact1 world9
    = (Raise (NotFoundError "project"),
       World service9
         [Request DELETE "/projects/PJ9/services/SV9/states/CT1" None] [])
  ∧ (∃ c, queryContactStates stub_repr [] world9 = (Ok c, world9) ∧
          cursor_next stub_dispatch stub_items stub_marker stub_next_params
            c world9
          = (Raise (NotFoundError "project"),
             World service9
               [Request GET "/projects/PJ9/services/SV9/states"
                  (Some (VDict []))] []))
  ∧ save stub_dispatch stub_repr false world9
    = (Raise (NotFoundError "project"),
       World service9 [Request POST base9 (Some (VDict []))] []).
Proof.
  destruct (dispatcher_errors_propagate _ stub_dispatch stub_repr stub_items
              stub_marker stub_next_params false world9 base9
              (NotFoundError "project") [] eq_refl)
    as (Hinvoke & Hstate & Hquery & Hsave).
  destruct (Hstate contact1 "CT1" eq_refl) as (Hget & Hset & Hreset).
  split; [exact (Hinvoke message_options eq_refl)|].
  split; [exact (Hget eq_refl)|].
  split; [exact (Hset [("id", VStr "q1")] eq_refl)|].
  split; [exact (Hreset eq_refl)|].
  split; [exact (Hquery [] eq_refl)|].
  exact (Hsave eq_refl eq_refl).
Defined.

(** ** Examples for the further properties *)

Lemma raw_message1_is_json :
  Forall (λ d, is_entity d = false) [raw_message1].
Proof. by repeat constructor. Qed.

Lemma invoke_identity_iff_no_messages_witness :
  (invoke (const_dispatch (VDict no_messages)) stub_repr contact_options
     world_unit).1 = Ok (VDict no_messages)
  ∧ (invoke (const_dispatch (VDict one_message)) stub_repr contact_options
       world_unit).1 ≠ Ok (VDict one_message).
Proof.
  split.
  - apply (proj2 (invoke_identity_iff_no_messages _
                    (const_dispatch (VDict no_messages)) stub_repr
                    contact_options world_unit base1 no_messages tt []
                    eq_refl eq_refl eq_refl (Forall_nil_2 _))).
    reflexivity.
  - intros H.
    apply (proj1 (invoke_identity_iff_no_messages _
                    (const_dispatch (VDict one_message)) stub_repr
                    contact_options world_unit base1 one_message tt
                    [raw_message1] eq_refl eq_refl eq_refl
                    raw_message1_is_json)) in H.
    discriminate H.
Defined.

Lemma ok_not_in_singleton : VStr "sent_messages" ∉ [VStr "ok"].
Proof. intros H. apply list_elem_of_singleton in H. discriminate H. Qed.

Lemma invoke_non_mapping_response_witness :
  invoke (const_dispatch VNone) stub_repr contact_options world_unit
    = (Raise TypeError,
       World service1 [Request POST invoke_path1 (Some (VDict contact_options))]
         tt)
  ∧ invoke (const_dispatch (VList [VStr "ok"])) stub_repr contact_options
      world_unit
    = (Ok (VList [VStr "ok"]),
       World service1 [Request POST invoke_path1 (Some (VDict contact_options))]
         tt).
Proof.
  split.
  - exact (proj1 (invoke_non_mapping_response _ (const_dispatch VNone)
                    stub_repr contact_options world_unit base1 VNone tt
                    eq_refl eq_refl) eq_refl).
  - exact (proj2 (invoke_non_mapping_response _
                    (const_dispatch (VList [VStr "ok"])) stub_repr
                    contact_options world_unit base1 (VList [VStr "ok"]) tt
                    eq_refl eq_refl) [VStr "ok"] eq_refl ok_not_in_singleton).
Defined.

Lemma invoke_sent_messages_not_iterable_witness :
  invoke (const_dispatch (VDict [("sent_messages", VNone)])) stub_repr
    contact_options world_unit
  = (Raise TypeError,
     World service1 [Request POST invoke_path1 (Some (VDict contact_options))]
       tt).
Proof.
  exact (invoke_sent_messages_not_iterable _
           (const_dispatch (VDict [("sent_messages", VNone)])) stub_repr
           contact_options world_unit base1 [("sent_messages", VNone)] tt
           VNone eq_refl eq_refl eq_refl eq_refl).
Defined.

Lemma null_project_id_is_formatted_witness :
  (getBaseApiPath stub_repr world_null_project).1
    = Ok "/projects/None/services/SV1"
  ∧ log (invoke stub_dispatch stub_repr message_options world_null_project).2
    = [Request POST "/projects/None/services/SV1/invoke"
         (Some (VDict message_options))]
  ∧ (queryContactStates stub_repr [] world_null_project).1
    = Ok (MkCursor ContactServiceState "/projects/None/services/SV1/states"
            [] Unfetched).
Proof.
  destruct (null_project_id_is_formatted _ stub_dispatch stub_repr
              world_null_project "SV1" eq_refl eq_refl)
    as (Hbase & Hinvoke & Hquery).
  split; [exact Hbase|]. split; [exact (Hinvoke _)|exact (Hquery _)].
Defined.

Lemma base_api_path_injective_witness :
  base_api_path stub_repr service1 ≠ base_api_path stub_repr service2.
Proof.
  intros H.
  destruct (base_api_path_injective stub_repr service1 service2
              "PJ1" "SV1" "PJ1" "SV2" base1
              eq_refl eq_refl eq_refl eq_refl eq_refl eq_refl eq_refl
              (eq_sym H)) as [_ Hs].
  discriminate Hs.
Defined.

Lemma state_requests_identify_resource_witness :
  "PJ1" = "PJ1" ∧ "SV1" = "SV1" ∧ "CT1" = "CT1".
Proof.
  exact (state_requests_identify_resource _ stub_dispatch stub_repr
           world1 world2 contact1 contact1 "PJ1" "SV1" "CT1" "PJ1" "SV1" "CT1"
           (Request DELETE state_path1 None) (Request GET state_path1 None)
           eq_refl eq_refl eq_refl eq_refl eq_refl eq_refl
           eq_refl eq_refl eq_refl eq_refl
           eq_refl (or_introl eq_refl) eq_refl).
Defined.

Lemma null_is_no_string : ∀ c, VNone ≠ VStr c.
Proof. intros c. discriminate. Qed.

Lemma seven_is_no_string : ∀ c, VInt 7 ≠ VStr c.
Proof. intros c. discriminate. Qed.

Lemma state_methods_non_string_id_witness :
  getContactState stub_dispatch stub_repr contact_no_id world2
    = (Raise TypeError, world2)
  ∧ resetContactState stub_dispatch stub_repr contact_no_id world2
    = (Raise TypeError, world2)
  ∧ getContactState stub_dispatch stub_repr contact_int_id world1
    = (Raise TypeError, world1)
  ∧ setContactState stub_dispatch stub_repr contact_int_id
      [("id", VStr "q1")] world1
    = (Raise TypeError, world1).
Proof.
  destruct (state_methods_non_string_id _ stub_dispatch stub_repr
              contact_no_id world2 base1 VNone eq_refl eq_refl
              null_is_no_string) as (Hget & _ & Hreset).
  destruct (state_methods_non_string_id _ stub_dispatch stub_repr
              contact_int_id world1 base1 (VInt 7) eq_refl eq_refl
              seven_is_no_string) as (Hget' & Hset' & _).
  split; [exact Hget|]. split; [exact Hreset|].
  split; [exact Hget'|exact (Hset' _)].
Defined.

Lemma set_then_get_requests_witness :
  getContactState stub_dispatch stub_repr contact1
    (setContactState stub_dispatch stub_repr contact1 [("id", VStr "q1")]
       world1).2
  = (Ok (new_entity ContactServiceState state_q1),
     World service1
       [Request POST state_path1 (Some (VDict [("id", VStr "q1")]));
        Request GET state_path1 None]
       [(state_path1, state_q1)]).
Proof.
  exact (set_then_get_requests _ stub_dispatch stub_repr contact1
           [("id", VStr "q1")] world1 base1 "CT1" (Ok state_q1)
           [(state_path1, state_q1)] eq_refl eq_refl eq_refl).
Defined.

(** Ids are put into the path as they are: with a [/] in an id, two
    different resources can share one path. *)
Example unquoted_ids_collide :
  log (resetContactState stub_dispatch stub_repr
         (new_entity Contact (VDict [("id", VStr "x/states/y")])) world1).2
  = log (resetContactState stub_dispatch stub_repr
           (new_entity Contact (VDict [("id", VStr "y")]))
           (World (new_entity Service
                     (VDict [("id", VStr "SV1/states/x");
                             ("project_id", VStr "PJ1")])) [] [])).2.
Proof. reflexivity. Qed.
